(** * Sandboxed preview execution: [backend/app/sandbox.py]

    A shallow embedding of [run_preview] and of the part of the Python
    runtime it talks to ([uuid.uuid4], [subprocess.Popen],
    [Popen.communicate], [Popen.kill], [bytes.decode]), and of the
    embedding cache and of the generation and search routes, followed by
    the properties that can be read off them. *)

From Stdlib Require Import ZArith NArith Lia List String Ascii Strings.Byte.
From stdpp Require Import base option gmap strings list.

Local Open Scope string_scope.
Local Open Scope list_scope.

(** ** Bytes and text *)

(** A Python [bytes] value. *)
Definition bytes := list byte.

(** A Python [str] value: a sequence of Unicode code points. *)
Definition pystr := list N.

(** The [str] denoted by an ASCII string literal of the source. *)
Definition lit (s : string) : pystr :=
  map N_of_ascii (list_ascii_of_string s).

(** The [bytes] holding the ASCII characters of a literal. *)
Definition blit (s : string) : bytes := list_byte_of_string s.

Module Utf8.

(** [bytes.decode("utf-8")] in its default strict mode: the well-formed
    byte sequences of the Unicode standard (no overlong forms, no
    surrogates, nothing above U+10FFFF); [None] stands for
    UnicodeDecodeError. *)

Definition between (lo hi b : N) : bool := ((lo <=? b) && (b <=? hi))%N.

Definition cont (b : N) : bool := between 128 191 b.

Definition low6 (b : N) : N := N.land b 63.

(** Range allowed for the second byte of a three-byte form. *)
Definition second_of_3 (b0 b1 : N) : bool :=
  if (b0 =? 224)%N then between 160 191 b1
  else if (b0 =? 237)%N then between 128 159 b1
  else cont b1.

(** Range allowed for the second byte of a four-byte form. *)
Definition second_of_4 (b0 b1 : N) : bool :=
  if (b0 =? 240)%N then between 144 191 b1
  else if (b0 =? 244)%N then between 128 143 b1
  else cont b1.

Fixpoint decode_points (bs : list N) : option pystr :=
  match bs with
  | [] => Some []
  | b0 :: r0 =>
      if (b0 <? 128)%N then
        match decode_points r0 with
        | Some s => Some (b0 :: s)
        | None => None
        end
      else if between 194 223 b0 then
        match r0 with
        | b1 :: r1 =>
            if cont b1 then
              match decode_points r1 with
              | Some s => Some ((N.land b0 31 * 64 + low6 b1)%N :: s)
              | None => None
              end
            else None
        | _ => None
        end
      else if between 224 239 b0 then
        match r0 with
        | b1 :: b2 :: r2 =>
            if second_of_3 b0 b1 && cont b2 then
              match decode_points r2 with
              | Some s =>
                  Some (((N.land b0 15 * 64 + low6 b1) * 64 + low6 b2)%N :: s)
              | None => None
              end
            else None
        | _ => None
        end
      else if between 240 244 b0 then
        match r0 with
        | b1 :: b2 :: b3 :: r3 =>
            if second_of_4 b0 b1 && cont b2 && cont b3 then
              match decode_points r3 with
              | Some s =>
                  Some ((((N.land b0 7 * 64 + low6 b1) * 64 + low6 b2) * 64
                         + low6 b3)%N :: s)
              | None => None
              end
            else None
        | _ => None
        end
      else None
  end.

Definition decode (b : bytes) : option pystr :=
  decode_points (map Byte.to_N b).

End Utf8.

(** ** Exceptions and outcomes *)

(** The exceptions that can leave the calls [run_preview] makes.
    [TimeoutExpired] carries the output captured so far, as the exception
    object of [communicate] does; [ValueError] is what [Popen] raises for
    an argument it cannot pass on. *)
Inductive exn : Type :=
| TimeoutExpired (output stderr : bytes)
| OSError (cause : string)
| ValueError (what : string)
| UnicodeDecodeError
| Fault (what : string).

Inductive outcome (A : Type) : Type :=
| Returned (a : A)
| Raised (e : exn).
Arguments Returned {A} a.
Arguments Raised {A} e.

(** ** The host: entropy, container runtime, child processes *)

(** What a launched child does, on a clock that starts when it is spawned:
    the chunks it writes to each pipe, when it exits by itself (if ever) and
    with which status, and a fault that may hit the parent while it waits
    on the pipes. *)
Record child_script : Type := {
  cs_stdout : list (nat * bytes);
  cs_stderr : list (nat * bytes);
  cs_exit : option (nat * Z);
  cs_fault : option (nat * string)
}.

(** How the host answers one [Popen]: the executable cannot be started, or
    a child is running. *)
Inductive spawn_plan : Type :=
| SpawnFails (cause : string)
| Spawns (c : child_script).

(** What becomes of one [Popen] call: the arguments are refused before the
    host is asked for anything, or the host answers. *)
Inductive launch : Type :=
| BadArgument
| Answer (plan : spawn_plan).

Coercion Answer : spawn_plan >-> launch.

(** A child is running, has been sent SIGKILL but not waited for, or has
    been waited for and its status collected. *)
Inductive pstate : Type :=
| Running
| Signalled
| Reaped (returncode : Z).

Record process : Type := {
  p_argv : list string;
  p_script : child_script;
  p_state : pstate;
  p_buffer : bytes * bytes
}.

(** What has happened to the children, most recent first: a [Popen] call
    with its command line and the handle of the child it started, if any;
    a child waited for; a signal sent. *)
Inductive event : Type :=
| Launch (argv : list string) (pid : option nat)
| Reap (pid : nat) (returncode : Z)
| Kill (pid : nat).

(** The host as [run_preview] can affect and observe it:
    - [w_uuid k] is the text of the [k]-th uuid drawn, [w_draws] the number
      drawn so far;
    - [w_runtime k argv] is the host's answer to the [k]-th launch when it
      is given the command line [argv];
    - [w_dirs] are the directories that exist and can be read;
    - [w_procs] is the table of children, a handle being an index into it;
    - [w_trace] records launches, reaps and signals, most recent first. *)
Record world : Type := {
  w_uuid : nat -> string;
  w_draws : nat;
  w_runtime : nat -> list string -> spawn_plan;
  w_dirs : gset string;
  w_procs : list process;
  w_trace : list event
}.

(** The command lines given to [Popen] so far, most recent first. *)
Definition invocations (w : world) : list (list string) :=
  omap (fun e => match e with Launch argv _ => Some argv | _ => None end)
       (w_trace w).

Definition set_draws (n : nat) (w : world) : world :=
  {| w_uuid := w_uuid w; w_draws := n; w_runtime := w_runtime w;
     w_dirs := w_dirs w; w_procs := w_procs w; w_trace := w_trace w |}.

Definition set_dirs (d : gset string) (w : world) : world :=
  {| w_uuid := w_uuid w; w_draws := w_draws w; w_runtime := w_runtime w;
     w_dirs := d; w_procs := w_procs w; w_trace := w_trace w |}.

Definition set_procs (ps : list process) (w : world) : world :=
  {| w_uuid := w_uuid w; w_draws := w_draws w; w_runtime := w_runtime w;
     w_dirs := w_dirs w; w_procs := ps; w_trace := w_trace w |}.

Definition log (e : event) (w : world) : world :=
  {| w_uuid := w_uuid w; w_draws := w_draws w; w_runtime := w_runtime w;
     w_dirs := w_dirs w; w_procs := w_procs w; w_trace := e :: w_trace w |}.

Definition set_state (s : pstate) (p : process) : process :=
  {| p_argv := p_argv p; p_script := p_script p; p_state := s;
     p_buffer := p_buffer p |}.

Definition set_buffer (b : bytes * bytes) (p : process) : process :=
  {| p_argv := p_argv p; p_script := p_script p; p_state := p_state p;
     p_buffer := b |}.

(** ** The effect monad: host state and exceptions *)

Definition M (A : Type) : Type := world -> world * outcome A.

Definition ret {A} (a : A) : M A := fun w => (w, Returned a).

Definition raise {A} (e : exn) : M A := fun w => (w, Raised e).

Definition bind {A B} (m : M A) (k : A -> M B) : M B :=
  fun w =>
    match m w with
    | (w', Returned a) => k a w'
    | (w', Raised e) => (w', Raised e)
    end.

(** [try: body except <class>: handler]: [handler e] is [None] when the
    except clause does not match [e], which then propagates. *)
Definition try_except {A} (body : M A) (handler : exn -> option (M A)) : M A :=
  fun w =>
    match body w with
    | (w', Returned a) => (w', Returned a)
    | (w', Raised e) =>
        match handler e with
        | Some h => h w'
        | None => (w', Raised e)
        end
    end.

Declare Scope py_scope.
Delimit Scope py_scope with py.
Notation "x <- c ;; k" := (bind c (fun x => k))
  (at level 100, c at next level, right associativity) : py_scope.
Notation "c ;;; k" := (bind c (fun _ => k))
  (at level 100, right associativity) : py_scope.
Local Open Scope py_scope.

(** ** The library calls *)

(** [str(uuid.uuid4())]: the next reading of the entropy source. *)
Definition uuid4_str : M string :=
  fun w => (set_draws (S (w_draws w)) w, Returned (w_uuid w (w_draws w))).

(** [out.decode("utf-8")]. *)
Definition decode (b : bytes) : M pystr :=
  match Utf8.decode b with
  | Some s => ret s
  | None => raise UnicodeDecodeError
  end.

(** Bytes written to a pipe up to time [t]. *)
Definition buffered (chunks : list (nat * bytes)) (t : nat) : bytes :=
  concat (map snd (List.filter (fun c => fst c <=? t)%nat chunks)).

Inductive wait_outcome : Type :=
| Exited (out err : bytes) (returncode : Z)
| Expired (out err : bytes)
| Faulted (what : string).

(** The child's natural end raced against the deadline: an exit no later
    than the deadline wins. *)
Definition natural (c : child_script) (timeout : nat) : wait_outcome :=
  match cs_exit c with
  | Some (te, code) =>
      if (te <=? timeout)%nat
      then Exited (buffered (cs_stdout c) te) (buffered (cs_stderr c) te) code
      else Expired (buffered (cs_stdout c) timeout)
                   (buffered (cs_stderr c) timeout)
  | None => Expired (buffered (cs_stdout c) timeout)
                    (buffered (cs_stderr c) timeout)
  end.

(** Does the fault reach the parent before the child ends and before the
    deadline? *)
Definition fault_first (c : child_script) (timeout : nat) : option string :=
  match cs_fault c with
  | Some (tf, what) =>
      if (tf <=? timeout)%nat
         && match cs_exit c with
            | Some (te, _) => (tf <? te)%nat
            | None => true
            end
      then Some what
      else None
  | None => None
  end.

Definition race (c : child_script) (timeout : nat) : wait_outcome :=
  match fault_first c timeout with
  | Some what => Faulted what
  | None => natural c timeout
  end.

(** A string with an embedded NUL character. *)
Definition has_nul (s : string) : bool :=
  existsb (fun a => Ascii.eqb a zero) (list_ascii_of_string s).

(** Has the child behind handle [i] been sent SIGKILL without being waited
    for? *)
Definition killed (w : world) (i : nat) : bool :=
  match w_procs w !! i with
  | Some p => match p_state p with Signalled => true | _ => false end
  | None => false
  end.

Definition reap_killed (p : process) : process :=
  match p_state p with
  | Signalled => set_state (Reaped (-9)) p
  | _ => p
  end.

(** [subprocess._cleanup()]: the children whose handles were dropped before
    they were waited for are polled, oldest first, and those that have
    ended are reaped. Here these are the children that were sent SIGKILL:
    [run_preview] returns right after the kill and drops the handle. A
    child that is still running is left alone. *)
Definition _cleanup (w : world) : world :=
  {| w_uuid := w_uuid w; w_draws := w_draws w; w_runtime := w_runtime w;
     w_dirs := w_dirs w;
     w_procs := map reap_killed (w_procs w);
     w_trace :=
       map (fun i => Reap i (-9))
           (rev (List.filter (killed w) (seq 0 (length (w_procs w)))))
       ++ w_trace w |}.

(** [subprocess.Popen(cmd, stdout=PIPE, stderr=PIPE)]: the handle is the
    index of the child in the process table. The constructor first runs
    [_cleanup]; an argument with an embedded NUL makes it raise
    [ValueError] before the host is asked to start anything. (Arguments
    are strings of 8-bit characters, which can always be encoded for the
    host.) *)
Definition Popen (cmd : list string) : M nat :=
  fun w0 =>
    let w := _cleanup w0 in
    if existsb has_nul cmd
    then (log (Launch cmd None) w, Raised (ValueError "embedded null byte"))
    else
      match w_runtime w (length (invocations w)) cmd with
      | SpawnFails cause => (log (Launch cmd None) w, Raised (OSError cause))
      | Spawns c =>
          let pid := length (w_procs w) in
          let p := {| p_argv := cmd; p_script := c; p_state := Running;
                      p_buffer := ([], []) |} in
          (log (Launch cmd (Some pid)) (set_procs (w_procs w ++ [p]) w),
           Returned pid)
      end.

(** [proc.communicate(timeout=timeout)]. On expiry the child is left
    running and what was read stays with the handle. *)
Definition communicate (proc : nat) (timeout : nat) : M (bytes * bytes) :=
  fun w =>
    match w_procs w !! proc with
    | None => (w, Raised (Fault "no such child"))
    | Some p =>
        match p_state p with
        | Running =>
            match race (p_script p) timeout with
            | Exited out err code =>
                (log (Reap proc code)
                     (set_procs (<[proc := set_state (Reaped code) p]> (w_procs w)) w),
                 Returned (out, err))
            | Expired out err =>
                (set_procs (<[proc := set_buffer (out, err) p]> (w_procs w)) w,
                 Raised (TimeoutExpired out err))
            | Faulted what => (w, Raised (Fault what))
            end
        | Signalled =>
            (log (Reap proc (-9))
                 (set_procs (<[proc := set_state (Reaped (-9)) p]> (w_procs w)) w),
             Returned (p_buffer p))
        | Reaped _ => (w, Returned ([], []))
        end
    end.

(** [proc.kill()]: SIGKILL to the child, without waiting for it; nothing is
    sent to a child that has already been reaped. *)
Definition kill (proc : nat) : M unit :=
  fun w =>
    match w_procs w !! proc with
    | None => (w, Returned tt)
    | Some p =>
        match p_state p with
        | Reaped _ => (w, Returned tt)
        | _ =>
            (log (Kill proc)
                 (set_procs (<[proc := set_state Signalled p]> (w_procs w)) w),
             Returned tt)
        end
    end.

(** ** [run_preview] *)

(** The [cmd] list of the source. *)
Definition preview_cmd (container_name code_dir container_image : string)
  : list string :=
  [ "docker"; "run"; "--rm"; "--name"; container_name;
    "--network"; "none";
    "-v"; code_dir +:+ ":/srv:ro";
    "-w"; "/srv";
    container_image;
    "npx"; "http-server"; "-p"; "8080" ].

Definition run_preview (container_image code_dir : string) (timeout : nat)
  : M (gmap string pystr) :=
  u <- uuid4_str ;;
  let run_id := substring 0 8 u in
  let container_name := "svgbuilder_preview_" +:+ run_id in
  let cmd := preview_cmd container_name code_dir container_image in
  proc <- Popen cmd ;;
  try_except
    (streams <- communicate proc timeout ;;
     let '(out, err) := streams in
     o <- decode out ;;
     e <- decode err ;;
     ret {[ "out" := o; "err" := e ]})
    (fun ex =>
       match ex with
       | TimeoutExpired _ _ =>
           Some (kill proc ;;; ret {[ "error" := lit "timeout" ]})
       | _ => None
       end).

(** ** Observations on the host *)

(** Children that have been started and not yet been waited for. *)
Definition unreaped (p : process) : bool :=
  match p_state p with Reaped _ => false | _ => true end.

Definition is_running (p : process) : bool :=
  match p_state p with Running => true | _ => false end.

(** The runtime's active list: handles of the children not yet reaped. *)
Definition active (w : world) : list nat :=
  List.filter (fun i => match w_procs w !! i with
                   | Some p => unreaped p
                   | None => false
                   end)
         (seq 0 (length (w_procs w))).

Definition running (w : world) : nat :=
  length (List.filter is_running (w_procs w)).

(** The signals sent to a child. *)
Definition kills (proc : nat) (w : world) : nat :=
  length (List.filter (fun e => match e with
                                | Kill p => (p =? proc)%nat
                                | _ => false
                                end) (w_trace w)).

(** ** Sample hosts *)

Definition sample_uuid : string := "3f2b8c1e-9d4a-4e6f-8a1b-0c2d3e4f5a6b".

(** A host with nothing running whose runtime answers every launch with
    [plan]. *)
Definition idle_host (plan : spawn_plan) : world :=
  {| w_uuid := fun _ => sample_uuid; w_draws := 0;
     w_runtime := fun _ _ => plan;
     w_dirs := ∅; w_procs := []; w_trace := [] |}.

(** A static server that prints a banner and keeps serving. *)
Definition server_script : child_script :=
  {| cs_stdout := [(1, blit "Starting up http-server")];
     cs_stderr := []; cs_exit := None; cs_fault := None |}.

(** A child that prints to both pipes and exits with [code] at time 2. *)
Definition short_script (out err : bytes) (code : Z) : child_script :=
  {| cs_stdout := [(1, out)]; cs_stderr := [(1, err)];
     cs_exit := Some (2, code); cs_fault := None |}.


(** ** What one call does to the host *)

(** The command line [run_preview] will hand to the host in [w]. *)
Definition next_cmd (container_image code_dir : string) (w : world)
  : list string :=
  preview_cmd ("svgbuilder_preview_" +:+ substring 0 8 (w_uuid w (w_draws w)))
              code_dir container_image.

(** What becomes of the [Popen] call made with that command line. *)
Definition next_plan (container_image code_dir : string) (w : world)
  : launch :=
  if existsb has_nul (next_cmd container_image code_dir w)
  then BadArgument
  else w_runtime w (length (invocations w))
                 (next_cmd container_image code_dir w).

Definition child_of (cmd : list string) (c : child_script) (s : pstate)
    (b : bytes * bytes) : process :=
  {| p_argv := cmd; p_script := c; p_state := s; p_buffer := b |}.

(** The host after one uuid reading, with [ps] appended to the process
    table and the events [evs] (most recent first) in front of the trace. *)
Definition after (w : world) (ps : list process) (evs : list event) : world :=
  {| w_uuid := w_uuid w; w_draws := S (w_draws w); w_runtime := w_runtime w;
     w_dirs := w_dirs w; w_procs := w_procs w ++ ps;
     w_trace := evs ++ w_trace w |}.

(** The value of the [return] statement of the [try] block. *)
Definition decoded (out err : bytes) : outcome (gmap string pystr) :=
  match Utf8.decode out with
  | Some o =>
      match Utf8.decode err with
      | Some e => Returned {[ "out" := o; "err" := e ]}
      | None => Raised UnicodeDecodeError
      end
  | None => Raised UnicodeDecodeError
  end.


(** The host once [n] callers have each run lines 12-23 of [run_preview]
    and are blocked in [communicate]: [n] previews are running. *)
Definition enter_preview (container_image code_dir : string) : M nat :=
  u <- uuid4_str ;;
  Popen (preview_cmd ("svgbuilder_preview_" +:+ substring 0 8 u)
                     code_dir container_image).

Definition busy_host (n : nat) : world :=
  Nat.iter n (fun w => fst (enter_preview "node:18-alpine" "/code" w))
           (idle_host (Spawns server_script)).

(** Lines 24-29 of [run_preview]: the [try] statement, for the handle
    [proc]. *)
Definition supervise (proc : nat) (timeout : nat) : M (gmap string pystr) :=
  try_except
    (streams <- communicate proc timeout ;;
     let '(out, err) := streams in
     o <- decode out ;;
     e <- decode err ;;
     ret {[ "out" := o; "err" := e ]})
    (fun ex =>
       match ex with
       | TimeoutExpired _ _ =>
           Some (kill proc ;;; ret {[ "error" := lit "timeout" ]})
       | _ => None
       end).


(** The docker client reporting that it cannot obtain the image. *)
Definition no_image_script : child_script :=
  {| cs_stdout := [];
     cs_stderr := [(1, blit "Unable to find image 'nope:latest' locally")];
     cs_exit := Some (1, 125%Z); cs_fault := None |}.

(** "café" in Latin-1: not well-formed UTF-8. *)
Definition latin1_cafe : bytes := [x63; x61; x66; xe9].

(** ** The properties under study *)


(** A result that holds the text [s] under some key. *)
Definition carries (d : gmap string pystr) (s : pystr) : Prop :=
  exists k, d !! k = Some s.

(** Timeout path as specified: the child is killed, its end is awaited, and
    the result reports the timeout together with the buffered output. *)
Definition timeout_with_output (container_image code_dir : string)
    (timeout : nat) (w : world) : Prop :=
  forall c out err o e,
    next_plan container_image code_dir w = Spawns c ->
    race c timeout = Expired out err ->
    Utf8.decode out = Some o -> Utf8.decode err = Some e ->
    let r := run_preview container_image code_dir timeout w in
    let proc := length (w_procs w) in
    kills proc (fst r) = S (kills proc w) /\
    (proc ∉ active (fst r)) /\
    exists d, snd r = Returned d /\ carries d (lit "timeout") /\
              (o <> [] -> carries d o) /\ (e <> [] -> carries d e).

(** A request turned away before anything is launched. *)
Definition rejected (container_image code_dir : string) (timeout : nat)
    (w : world) : Prop :=
  let r := run_preview container_image code_dir timeout w in
  invocations (fst r) = invocations w /\ exists e, snd r = Raised e.

(** Asset-path validation: an unreadable asset directory is rejected. *)
Definition asset_path_validated (container_image code_dir : string)
    (timeout : nat) (w : world) : Prop :=
  code_dir ∉ w_dirs w -> rejected container_image code_dir timeout w.

(** Concurrency ceiling [N]: a request that finds [N] previews running is
    rejected. *)
Definition ceiling_enforced (N : nat) (container_image code_dir : string)
    (timeout : nat) (w : world) : Prop :=
  N <= running w -> rejected container_image code_dir timeout w.

(** [a] immediately followed by [b] in a command line. *)
Definition adjacent (a b : string) (argv : list string) : Prop :=
  exists l1 l2, argv = l1 ++ a :: b :: l2.

(** The docker options that choose the user inside the container. *)
Definition user_option (a : string) : bool :=
  String.eqb a "-u" || String.eqb a "--user" || String.prefix "--user=" a.

(** Isolation as specified: read-only mount at the fixed path, no network,
    an unprivileged user, the serving command. *)
Definition isolated (container_image code_dir : string) (argv : list string)
  : Prop :=
  adjacent "-v" (code_dir +:+ ":/srv:ro") argv /\
  adjacent "--network" "none" argv /\
  existsb user_option argv = true /\
  exists pre, argv = pre ++ container_image :: ["npx"; "http-server"; "-p"; "8080"].

Definition isolation_invocation (container_image code_dir : string)
    (timeout : nat) (w : world) : Prop :=
  exists argv,
    invocations (fst (run_preview container_image code_dir timeout w))
    = argv :: invocations w /\
    isolated container_image code_dir argv.

(** Natural termination as specified: a result is returned whenever the
    child ends by itself before the deadline. *)
Definition natural_gives_result (container_image code_dir : string)
    (timeout : nat) (w : world) : Prop :=
  forall c out err code,
    next_plan container_image code_dir w = Spawns c ->
    race c timeout = Exited out err code ->
    exists d, snd (run_preview container_image code_dir timeout w) = Returned d.

(** Launch failure as specified: reported as a result value, not as an
    exception. *)
Definition launch_failure_structured (container_image code_dir : string)
    (timeout : nat) (w : world) : Prop :=
  forall cause,
    next_plan container_image code_dir w = SpawnFails cause ->
    exists d, snd (run_preview container_image code_dir timeout w) = Returned d.

(** Output cap [cap]: no stream of a returned result is longer. *)
Definition output_capped (cap : nat) (container_image code_dir : string)
    (timeout : nat) (w : world) : Prop :=
  forall d k v,
    snd (run_preview container_image code_dir timeout w) = Returned d ->
    d !! k = Some v -> length v <= cap.

(** The two result shapes. *)
Definition shape_output (d : gmap string pystr) : Prop :=
  dom d = {[ "out"; "err" ]}.

Definition shape_timeout (d : gmap string pystr) : Prop :=
  d = {[ "error" := lit "timeout" ]}.

(** Shape exclusivity as stated: a natural end gives the output shape with
    the decoded streams, a timeout gives the error shape. *)
Definition two_shapes (container_image code_dir : string) (timeout : nat)
    (w : world) : Prop :=
  forall c, next_plan container_image code_dir w = Spawns c ->
    (forall out err code, race c timeout = Exited out err code ->
       exists d, snd (run_preview container_image code_dir timeout w) = Returned d /\
                 shape_output d /\
                 d !! "out" = Utf8.decode out /\ d !! "err" = Utf8.decode err) /\
    (forall out err, race c timeout = Expired out err ->
       exists d, snd (run_preview container_image code_dir timeout w) = Returned d /\
                 shape_timeout d).

(** ** Session registry *)

Module Registry.

(** Modelled from the spec: the lifecycle states of a session; the
    source keeps no session records. *)
Inductive session_state : Type :=
| Pending | Running | Completed | TimedOut | LaunchFailed | Reaped.

(** Modelled from the spec: the session record; the source has none. *)
Record session : Type := {
  assetPath : string;
  image : string;
  timeout : nat;
  state : session_state
}.

(** Modelled from the spec: the registry, which owns the active sessions
    (keyed by session id) and the ceiling; the source has no registry. *)
Record registry : Type := {
  maxConcurrent : nat;
  sessions : gmap string session
}.

(** Modelled from the spec: [release] removes the session from the active
    set and never fails; the source has no such operation. *)
Definition release (id : string) (r : registry) : registry * outcome unit :=
  ({| maxConcurrent := maxConcurrent r;
      sessions := delete id (sessions r) |},
   Returned tt).

End Registry.

(** ** Further observations on [run_preview] *)

(** The value of [--name] in a command line built by [run_preview]. *)
Definition container_name (argv : list string) : string :=
  nth 4 argv "".

(** A stream made of ASCII bytes only. *)
Definition ascii_only (b : bytes) : Prop :=
  Forall (fun x => (Byte.to_N x < 128)%N) b.




(** A host whose first two uuids differ only after the eighth character. *)
Definition twin_host : world :=
  {| w_uuid := fun k => match k with
                        | 0 => "3f2b8c1e-9d4a-4e6f-8a1b-0c2d3e4f5a6b"
                        | _ => "3f2b8c1e-0000-4111-8222-333344445555"
                        end;
     w_draws := 0;
     w_runtime := fun _ _ => Spawns server_script;
     w_dirs := ∅; w_procs := []; w_trace := [] |}.

(** ** The embedding model cache: [backend/app/embeddings.py] *)

Module Embeddings.
Section Library.

(** A loaded [SentenceTransformer] and the list of floats that
    [model.encode(text).tolist()] yields; both are opaque here. *)
Variable model : Type.
Variable vector : Type.

(** [SentenceTransformer(name)]: the [k]-th construction either loads a
    model or raises. *)
Variable SentenceTransformer : nat -> string -> outcome model.

(** [model.encode(text).tolist()]. *)
Variable encode : model -> string -> vector.

(** The module's global [_model], with the names passed to the constructor
    so far (most recent first). *)
Record globals : Type := {
  _model : option model;
  constructed : list string
}.

Definition get_model (name : string) (g : globals)
  : globals * outcome model :=
  match _model g with
  | None =>
      match SentenceTransformer (length (constructed g)) name with
      | Returned m =>
          ({| _model := Some m; constructed := name :: constructed g |},
           Returned m)
      | Raised e =>
          ({| _model := None; constructed := name :: constructed g |},
           Raised e)
      end
  | Some m => (g, Returned m)
  end.

(** The default of [get_model]'s [name] parameter. *)
Definition default_name : string := "all-MiniLM-L6-v2".

Definition embed (text : string) (g : globals) : globals * outcome vector :=
  match get_model default_name g with
  | (g', Returned m) => (g', Returned (encode m text))
  | (g', Raised e) => (g', Raised e)
  end.

End Library.

Arguments _model {model} g.
Arguments constructed {model} g.
Arguments Build_globals {model} _ _.

End Embeddings.

(** ** The generation route: [backend/app/ollama_client.py] and
    [backend/app/routes/generate.py] *)

Module Ollama.
Section Library.

(** Parsed JSON and Python floats are opaque. *)
Variable json : Type.
Variable float : Type.

(** The Python values that go into the payload. *)
Inductive value : Type :=
| VStr (s : string)
| VInt (n : Z)
| VFloat (x : float)
| VNone.

(** What comes back from [requests.post]: no response at all (connection
    refused, timeout), or a response with its status and its body, [None]
    when the body is not JSON. *)
Inductive reply : Type :=
| NoResponse (why : string)
| Response (status_code : Z) (body : option json).

Inductive error : Type :=
| RequestException (why : string)
| HTTPError (status_code : Z)
| JSONDecodeError
| HTTPException (status_code : Z) (detail : string).

Inductive result (A : Type) : Type :=
| Ok (a : A)
| Err (e : error).

(** [str(e)]. *)
Variable str : error -> string.

(** One call of [requests.post(url, json=payload, timeout=timeout)]. *)
Record post : Type := {
  url : string;
  payload : gmap string value;
  timeout : Z
}.

(** The network: how the [k]-th request is answered, and the requests sent
    so far (most recent first). *)
Record net : Type := {
  server : nat -> post -> reply;
  sent : list post
}.

(** [os.getenv("OLLAMA_API_URL", ...)] in the environment [environ]. *)
Definition OLLAMA_URL (environ : gmap string string) : string :=
  default "http://localhost:11434/api/generate" (environ !! "OLLAMA_API_URL").

(** [resp.raise_for_status()] raises for 4xx and 5xx. *)
Definition is_error_status (status_code : Z) : bool :=
  (400 <=? status_code)%Z && (status_code <? 600)%Z.

Definition generate_with_ollama (environ : gmap string string)
    (model prompt : string) (max_tokens temperature : value) (n : net)
  : net * result json :=
  let payload := {[ "model" := VStr model; "prompt" := VStr prompt;
                    "max_tokens" := max_tokens;
                    "temperature" := temperature ]} in
  let p := {| url := OLLAMA_URL environ; payload := payload;
              timeout := 300 |} in
  let n' := {| server := server n; sent := p :: sent n |} in
  match server n (length (sent n)) p with
  | NoResponse why => (n', Err json (RequestException why))
  | Response status_code body =>
      if is_error_status status_code
      then (n', Err json (HTTPError status_code))
      else match body with
           | Some j => (n', Ok json j)
           | None => (n', Err json JSONDecodeError)
           end
  end.

(** The request model [GenRequest]; the two optional fields may be null. *)
Record GenRequest : Type := {
  model : string;
  prompt : string;
  max_tokens : option Z;
  temperature : option float
}.

Definition of_int (o : option Z) : value :=
  match o with Some n => VInt n | None => VNone end.

Definition of_float (o : option float) : value :=
  match o with Some x => VFloat x | None => VNone end.

(** The route handler [generate]. *)
Definition generate (environ : gmap string string) (req : GenRequest)
    (n : net) : net * result json :=
  match generate_with_ollama environ (model req) (prompt req)
          (of_int (max_tokens req)) (of_float (temperature req)) n with
  | (n', Ok _ out) => (n', Ok json out)
  | (n', Err _ e) => (n', Err json (HTTPException 500 (str e)))
  end.

End Library.

Arguments VStr {float} s.
Arguments VInt {float} n.
Arguments VNone {float}.
Arguments NoResponse {json} why.
Arguments Response {json} status_code body.
Arguments Ok {A} a.
Arguments Err {A} e.
Arguments url {float} p.
Arguments payload {float} p.
Arguments timeout {float} p.
Arguments server {json float} n.
Arguments sent {json float} n.
Arguments model {float} g.
Arguments prompt {float} g.
Arguments max_tokens {float} g.
Arguments temperature {float} g.

End Ollama.

(** ** The search route: [backend/app/routes/search.py] *)

Module Search.
Section Library.

Variable model : Type.
Variable vector : Type.
Variable SentenceTransformer : nat -> string -> outcome model.
Variable encode : model -> string -> vector.

(** Point ids, payloads and scores of the vector store are opaque. *)
Variable point_id : Type.
Variable point_payload : Type.
Variable score : Type.

(** A scored point returned by [client.search]. *)
Record hit : Type := {
  h_id : point_id;
  h_payload : point_payload;
  h_score : score
}.

(** The values of a result entry. *)
Inductive field : Type :=
| FId (i : point_id)
| FPayload (p : point_payload)
| FScore (s : score).

(** One call of [QdrantClient(url=...).search(...)]. *)
Record query : Type := {
  q_url : string;
  q_collection : string;
  q_vector : vector;
  q_limit : Z
}.

(** The vector store: how the [k]-th query is answered, and the queries
    made so far (most recent first). *)
Record store : Type := {
  answer : nat -> query -> outcome (list hit);
  asked : list query
}.

(** The request model [SearchRequest]. *)
Record SearchRequest : Type := {
  query_text : string;
  top_k : Z
}.

(** The dictionary appended for one hit. *)
Definition entry (h : hit) : gmap string field :=
  {[ "id" := FId (h_id h); "payload" := FPayload (h_payload h);
     "score" := FScore (h_score h) ]}.

(** The [for] loop: [results] starts empty and grows by one entry per hit. *)
Definition collect (hits : list hit) : list (gmap string field) :=
  fold_left (fun results h => results ++ [entry h]) hits [].

(** The route handler [search]; the value returned is the list stored
    under the key [results]. *)
Definition search (req : SearchRequest)
    (g : Embeddings.globals model) (s : store)
  : Embeddings.globals model * store * outcome (list (gmap string field)) :=
  match Embeddings.embed model vector SentenceTransformer encode
          (query_text req) g with
  | (g', Raised e) => (g', s, Raised e)
  | (g', Returned vec) =>
      let q := {| q_url := "http://localhost:6333";
                  q_collection := "templates";
                  q_vector := vec; q_limit := top_k req |} in
      let s' := {| answer := answer s; asked := q :: asked s |} in
      match answer s (length (asked s)) q with
      | Raised e => (g', s', Raised e)
      | Returned hits => (g', s', Returned (collect hits))
      end
  end.

End Library.

Arguments h_id {point_id point_payload score} h.
Arguments h_payload {point_id point_payload score} h.
Arguments h_score {point_id point_payload score} h.
Arguments q_url {vector} q.
Arguments q_collection {vector} q.
Arguments q_vector {vector} q.
Arguments q_limit {vector} q.
Arguments answer {vector point_id point_payload score} s.
Arguments asked {vector point_id point_payload score} s.

End Search.

(** ** Sample libraries *)

(** A model hub that is unreachable for the first construction only; a
    model is represented by its name. *)
Definition flaky_hub (k : nat) (name : string) : outcome string :=
  match k with
  | 0 => Raised (OSError "hub unreachable")
  | _ => Returned name
  end.

(** An encoder standing in for the real one: the two lengths. *)
Definition toy_encode (m text : string) : list nat :=
  [String.length m; String.length text].

(** An upstream that does not know the model: 404 with a JSON body. *)
Definition not_found_net : Ollama.net string unit :=
  {| Ollama.server := fun _ _ => Ollama.Response 404 (Some "{}");
     Ollama.sent := [] |}.

(** An upstream that answers 200 with a JSON body. *)
Definition ok_net : Ollama.net string unit :=
  {| Ollama.server := fun _ _ => Ollama.Response 200 (Some "{}");
     Ollama.sent := [] |}.

Definition sample_request : Ollama.GenRequest unit :=
  {| Ollama.model := "llama3"; Ollama.prompt := "a landing page";
     Ollama.max_tokens := None; Ollama.temperature := None |}.

(** A store that answers every query with two scored points; ids and
    payloads are strings and scores are per mille. *)
Definition two_hits : list (Search.hit string string nat) :=
  [ {| Search.h_id := "landing-1"; Search.h_payload := "Landing Page 1";
       Search.h_score := 812 |};
    {| Search.h_id := "dashboard-1"; Search.h_payload := "Admin Dashboard 1";
       Search.h_score := 455 |} ].

Definition sample_store : Search.store (list nat) string string nat :=
  {| Search.answer := fun _ _ => Returned two_hits; Search.asked := [] |}.

Definition sample_search : Search.SearchRequest :=
  {| Search.query_text := "landing page"; Search.top_k := 4 |}.

Definition warm_cache : Embeddings.globals string :=
  Embeddings.Build_globals (Some "all-MiniLM-L6-v2") ["all-MiniLM-L6-v2"].

(** * Properties *)

(** ** Sample runs *)

Example decode_two_bytes : Utf8.decode [xc3; xa9] = Some [233%N].
Proof. reflexivity. Qed.

Example decode_three_bytes : Utf8.decode [xe2; x82; xac] = Some [8364%N].
Proof. reflexivity. Qed.

Example decode_four_bytes :
  Utf8.decode [xf0; x9f; x98; x80] = Some [128512%N].
Proof. reflexivity. Qed.

Example decode_overlong : Utf8.decode [xc0; x80] = None.
Proof. reflexivity. Qed.

Example decode_surrogate : Utf8.decode [xed; xa0; x80] = None.
Proof. reflexivity. Qed.

Example decode_beyond_range : Utf8.decode [xf4; x90; x80; x80] = None.
Proof. reflexivity. Qed.

Example decode_cut_short : Utf8.decode [x61; xe2; x82] = None.
Proof. reflexivity. Qed.

Example decode_latin1 : Utf8.decode latin1_cafe = None.
Proof. reflexivity. Qed.

Example run_preview_server :
  snd (run_preview "node:18-alpine" "/code" 30 (idle_host (Spawns server_script)))
  = Returned {[ "error" := lit "timeout" ]}.
Proof. reflexivity. Qed.

Example run_preview_short :
  snd (run_preview "node:18-alpine" "/code" 30
         (idle_host (Spawns (short_script (blit "hi") (blit "warn") 0))))
  = Returned {[ "out" := lit "hi"; "err" := lit "warn" ]}.
Proof. reflexivity. Qed.

Example run_preview_cmd :
  invocations (fst (run_preview "node:18-alpine" "/code" 30
                      (idle_host (Spawns server_script))))
  = [[ "docker"; "run"; "--rm"; "--name"; "svgbuilder_preview_3f2b8c1e";
       "--network"; "none"; "-v"; "/code:/srv:ro"; "-w"; "/srv";
       "node:18-alpine"; "npx"; "http-server"; "-p"; "8080" ]].
Proof. reflexivity. Qed.


Lemma lookup_last_app {A} (l : list A) (x : A) :
  (l ++ [x]) !! length l = Some x.
Proof. by apply list_lookup_middle. Qed.

Lemma insert_last_app {A} (l : list A) (x y : A) :
  <[length l := y]> (l ++ [x]) = l ++ [y].
Proof.
  rewrite insert_app_r_alt by lia.
  by replace (length l - length l) with 0 by lia.
Qed.

Lemma cleanup_length (w : world) :
  length (w_procs (_cleanup w)) = length (w_procs w).
Proof. cbn. apply length_map. Qed.

Lemma cleanup_invocations (w : world) : invocations (_cleanup w) = invocations w.
Proof.
  unfold invocations. cbn. rewrite omap_app.
  generalize (rev (List.filter (killed w) (seq 0 (length (w_procs w))))).
  intros l. by induction l.
Qed.

Lemma cleanup_kills (w : world) (proc : nat) :
  kills proc (_cleanup w) = kills proc w.
Proof.
  unfold kills. cbn. rewrite List.filter_app, length_app.
  generalize (rev (List.filter (killed w) (seq 0 (length (w_procs w))))).
  intros l. by induction l.
Qed.

Lemma cleanup_lookup (w : world) (i : nat) :
  w_procs (_cleanup w) !! i = reap_killed <$> w_procs w !! i.
Proof. cbn. apply list_lookup_fmap. Qed.

(** With no killed child around, the sweep changes no entry. *)
Lemma cleanup_nothing_killed (w : world) :
  (forall i, killed w i = false) -> w_procs (_cleanup w) = w_procs w.
Proof.
  intros H. apply list_eq. intros i. rewrite cleanup_lookup.
  specialize (H i). unfold killed in H.
  destruct (w_procs w !! i) as [p|]; [|done]. cbn. f_equal.
  unfold reap_killed. by destruct (p_state p).
Qed.

Lemma run_preview_unfold container_image code_dir timeout w :
  let cmd := next_cmd container_image code_dir w in
  let pid := length (w_procs w) in
  let w0 := _cleanup w in
  run_preview container_image code_dir timeout w =
  match next_plan container_image code_dir w with
  | BadArgument =>
      (after w0 [] [Launch cmd None], Raised (ValueError "embedded null byte"))
  | Answer (SpawnFails cause) =>
      (after w0 [] [Launch cmd None], Raised (OSError cause))
  | Answer (Spawns c) =>
      match race c timeout with
      | Exited out err code =>
          (after w0 [child_of cmd c (Reaped code) ([], [])]
                    [Reap pid code; Launch cmd (Some pid)],
           decoded out err)
      | Expired out err =>
          (after w0 [child_of cmd c Signalled (out, err)]
                    [Kill pid; Launch cmd (Some pid)],
           Returned {[ "error" := lit "timeout" ]})
      | Faulted what =>
          (after w0 [child_of cmd c Running ([], [])] [Launch cmd (Some pid)],
           Raised (Fault what))
      end
  end.
Proof.
  intros cmd pid w0. subst pid. rewrite <- (cleanup_length w). fold w0.
  unfold run_preview, next_plan, bind, uuid4_str, Popen.
  change (_cleanup (set_draws (S (w_draws w)) w))
    with (set_draws (S (w_draws w)) w0).
  change (invocations (set_draws (S (w_draws w)) w0)) with (invocations w0).
  change (w_uuid (set_draws (S (w_draws w)) w)) with (w_uuid w).
  change (w_runtime (set_draws (S (w_draws w)) w0)) with (w_runtime w).
  change (w_procs (set_draws (S (w_draws w)) w0)) with (w_procs w0).
  rewrite (cleanup_invocations w : invocations w0 = invocations w).
  fold (next_cmd container_image code_dir w). fold cmd.
  destruct (existsb has_nul cmd).
  { unfold after, log. cbn. by rewrite app_nil_r. }
  destruct (w_runtime w (length (invocations w)) cmd) as [cause|c].
  - unfold after, log. cbn. by rewrite app_nil_r.
  - unfold try_except, communicate, bind.
    cbn [w_procs log set_procs set_draws].
    rewrite lookup_last_app. cbn [p_state p_script].
    destruct (race c timeout) as [out err code|out err|what].
    + cbn [w_procs log set_procs set_draws]. rewrite insert_last_app.
      unfold decoded, decode.
      destruct (Utf8.decode out) as [o|]; [|done].
      destruct (Utf8.decode err) as [e|]; done.
    + unfold kill. cbn [w_procs log set_procs set_draws].
      rewrite !insert_last_app, lookup_last_app.
      cbn [p_state set_buffer w_procs log set_procs set_draws].
      by rewrite insert_last_app.
    + done.
Qed.

Lemma run_preview_result container_image code_dir timeout w :
  snd (run_preview container_image code_dir timeout w) =
  match next_plan container_image code_dir w with
  | BadArgument => Raised (ValueError "embedded null byte")
  | Answer (SpawnFails cause) => Raised (OSError cause)
  | Answer (Spawns c) =>
      match race c timeout with
      | Exited out err _ => decoded out err
      | Expired _ _ => Returned {[ "error" := lit "timeout" ]}
      | Faulted what => Raised (Fault what)
      end
  end.
Proof.
  rewrite run_preview_unfold.
  destruct (next_plan _ _ _) as [|[cause|c]]; [done|done|].
  by destruct (race c timeout).
Qed.


Lemma kills_after_other (w : world) (ps : list process) (evs : list event)
    (proc : nat) :
  forallb (fun e => match e with Kill _ => false | _ => true end) evs = true ->
  kills proc (after w ps evs) = kills proc w.
Proof.
  unfold kills. cbn. induction evs as [|e evs IH]; [done|].
  cbn. destruct e; cbn; try done; auto.
Qed.

Lemma invocations_after (w : world) (ps : list process) (evs : list event) :
  invocations (after w ps evs) =
  omap (fun e => match e with Launch argv _ => Some argv | _ => None end) evs
  ++ invocations w.
Proof. unfold invocations. cbn. apply omap_app. Qed.

(** One more launch than before, whatever the host answers. *)
Lemma run_preview_invocations container_image code_dir timeout w :
  invocations (fst (run_preview container_image code_dir timeout w)) =
  next_cmd container_image code_dir w :: invocations w.
Proof.
  rewrite run_preview_unfold.
  destruct (next_plan _ _ _) as [|[cause|c]]; [| |destruct (race c timeout)];
    cbn [fst]; by rewrite invocations_after, cleanup_invocations.
Qed.

Lemma kills_after_kill (w : world) (ps : list process) (evs : list event)
    (proc : nat) :
  forallb (fun e => match e with Kill _ => false | _ => true end) evs = true ->
  kills proc (after w ps (Kill proc :: evs)) = S (kills proc w).
Proof.
  intros H. rewrite <- (kills_after_other w ps evs proc H).
  unfold kills. cbn. by rewrite Nat.eqb_refl.
Qed.


(** The call's own child sits at the end of the swept process table. *)
Lemma lookup_own (w : world) (p : process) (evs : list event) :
  w_procs (after (_cleanup w) [p] evs) !! length (w_procs w) = Some p.
Proof.
  unfold after. cbn [w_procs]. rewrite <- (cleanup_length w).
  apply lookup_last_app.
Qed.

(** ** Teardown *)



(** ** Timeout path *)

(** C2, as stated, fails: the server has printed its banner when the
    deadline passes, yet the result holds nothing but the timeout marker,
    and the killed child has not been waited for. *)
Lemma timeout_drops_output :
  ~ timeout_with_output "node:18-alpine" "/code" 30
      (idle_host (Spawns server_script)).
Proof.
  intros H.
  destruct (H server_script (blit "Starting up http-server") []
              (lit "Starting up http-server") []
              eq_refl eq_refl eq_refl eq_refl)
    as (_ & _ & d & Hd & _ & Hout & _).
  assert (d = {[ "error" := lit "timeout" ]}) as -> by (by injection Hd).
  destruct Hout as [k Hk]; [done|].
  apply lookup_singleton_Some in Hk as [_ Hk]. discriminate Hk.
Qed.

(** C2, amended: when the deadline passes first, [run_preview] sends one
    kill to the child and returns the dictionary that holds the timeout
    marker only; the output buffered so far stays with the handle and is
    not part of the result. *)
Theorem run_preview_timeout container_image code_dir timeout w c out err :
  next_plan container_image code_dir w = Spawns c ->
  race c timeout = Expired out err ->
  let r := run_preview container_image code_dir timeout w in
  let proc := length (w_procs w) in
  snd r = Returned {[ "error" := lit "timeout" ]} /\
  kills proc (fst r) = S (kills proc w) /\
  p_buffer <$> w_procs (fst r) !! proc = Some (out, err) /\
  forall d, snd r = Returned d -> d !! "out" = None /\ d !! "err" = None.
Proof.
  intros Hplan Hrace r proc. subst r proc.
  rewrite run_preview_unfold, Hplan, Hrace. cbn [fst snd].
  split; [done|]. split.
  { rewrite kills_after_kill by done. by rewrite cleanup_kills. }
  split.
  - by rewrite lookup_own.
  - intros d Hd. by simplify_eq.
Qed.

Lemma run_preview_timeout_witness :
  let w := idle_host (Spawns server_script) in
  let r := run_preview "node:18-alpine" "/code" 30 w in
  next_plan "node:18-alpine" "/code" w = Spawns server_script /\
  race server_script 30 = Expired (blit "Starting up http-server") [] /\
  snd r = Returned {[ "error" := lit "timeout" ]} /\
  kills 0 (fst r) = 1 /\
  p_buffer <$> w_procs (fst r) !! 0
  = Some (blit "Starting up http-server", []) /\
  forall d, snd r = Returned d -> d !! "out" = None /\ d !! "err" = None.
Proof.
  split; [reflexivity|]. split; [reflexivity|].
  exact (run_preview_timeout "node:18-alpine" "/code" 30
           (idle_host (Spawns server_script)) server_script
           (blit "Starting up http-server") [] eq_refl eq_refl).
Defined.

(** ** Asset path *)

(** C3, as stated, fails: with no readable directory on the host at all,
    the request for a missing asset directory still reaches the container
    runtime. *)
Lemma missing_asset_dir_is_launched :
  ~ asset_path_validated "node:18-alpine" "/missing" 30
      (idle_host (Spawns server_script)).
Proof.
  intros H. destruct H as [Hinv _].
  - cbn. apply not_elem_of_empty.
  - rewrite run_preview_invocations in Hinv. discriminate Hinv.
Qed.

(** C3, amended: [run_preview] never looks at the asset directory. Whatever
    directories exist on the host, the call behaves the same, and it hands
    the runtime one command line whose [-v] option mounts [code_dir] as
    given. *)
Theorem run_preview_ignores_asset_dir container_image code_dir timeout w dirs :
  let r := run_preview container_image code_dir timeout w in
  run_preview container_image code_dir timeout (set_dirs dirs w)
  = (set_dirs dirs (fst r), snd r) /\
  invocations (fst r) = next_cmd container_image code_dir w :: invocations w /\
  adjacent "-v" (code_dir +:+ ":/srv:ro") (next_cmd container_image code_dir w).
Proof.
  intros r. subst r. split; [|split].
  - rewrite !run_preview_unfold.
    change (next_plan container_image code_dir (set_dirs dirs w))
      with (next_plan container_image code_dir w).
    destruct (next_plan _ _ _) as [|[cause|c]]; [done|done|].
    by destruct (race c timeout).
  - apply run_preview_invocations.
  - by eexists [_; _; _; _; _; _; _], _.
Qed.

(** ** Concurrency *)

Lemma enter_preview_unfold container_image code_dir w :
  let cmd := next_cmd container_image code_dir w in
  let pid := length (w_procs w) in
  let w0 := _cleanup w in
  enter_preview container_image code_dir w =
  match next_plan container_image code_dir w with
  | BadArgument =>
      (after w0 [] [Launch cmd None], Raised (ValueError "embedded null byte"))
  | Answer (SpawnFails cause) =>
      (after w0 [] [Launch cmd None], Raised (OSError cause))
  | Answer (Spawns c) =>
      (after w0 [child_of cmd c Running ([], [])] [Launch cmd (Some pid)],
       Returned pid)
  end.
Proof.
  intros cmd pid w0. subst pid. rewrite <- (cleanup_length w). fold w0.
  unfold enter_preview, next_plan, bind, uuid4_str, Popen.
  change (_cleanup (set_draws (S (w_draws w)) w))
    with (set_draws (S (w_draws w)) w0).
  change (invocations (set_draws (S (w_draws w)) w0)) with (invocations w0).
  change (w_uuid (set_draws (S (w_draws w)) w)) with (w_uuid w).
  change (w_runtime (set_draws (S (w_draws w)) w0)) with (w_runtime w).
  change (w_procs (set_draws (S (w_draws w)) w0)) with (w_procs w0).
  rewrite (cleanup_invocations w : invocations w0 = invocations w).
  fold (next_cmd container_image code_dir w). fold cmd.
  destruct (existsb has_nul cmd).
  { unfold after, log. cbn. by rewrite app_nil_r. }
  destruct (w_runtime w (length (invocations w)) cmd) as [cause|c]; [|done].
  unfold after, log. cbn. by rewrite app_nil_r.
Qed.

(** [run_preview] is its launch (lines 12-23) followed by the [try]
    statement on the handle obtained. *)
Lemma run_preview_phases container_image code_dir timeout w :
  run_preview container_image code_dir timeout w
  = (proc <- enter_preview container_image code_dir ;;
     supervise proc timeout) w.
Proof.
  unfold run_preview, enter_preview, supervise, bind, uuid4_str. cbv zeta.
  by destruct (Popen _ _) as [w2 [pid|e]].
Qed.

Lemma is_running_reap_killed (p : process) :
  is_running (reap_killed p) = is_running p.
Proof. unfold reap_killed, is_running. by destruct (p_state p) eqn:H; cbn; rewrite ?H. Qed.

Lemma running_cleanup (w : world) : running (_cleanup w) = running w.
Proof.
  unfold running. cbn [_cleanup w_procs].
  induction (w_procs w) as [|p ps IH]; [done|].
  cbn [map List.filter]. rewrite is_running_reap_killed.
  destruct (is_running p); cbn [length]; by rewrite IH.
Qed.

Lemma running_after (w : world) (ps : list process) (evs : list event) :
  running (after w ps evs) = running w + length (List.filter is_running ps).
Proof. unfold running. cbn. by rewrite List.filter_app, length_app. Qed.

Lemma busy_host_succ (n : nat) :
  busy_host (S n) = fst (enter_preview "node:18-alpine" "/code" (busy_host n)).
Proof. done. Qed.

Lemma busy_host_config (n : nat) :
  w_uuid (busy_host n) = (fun _ => sample_uuid) /\
  w_runtime (busy_host n) = (fun _ _ => Spawns server_script).
Proof.
  induction n as [|n IH]; [done|].
  rewrite busy_host_succ, enter_preview_unfold.
  by destruct (next_plan _ _ _) as [|[cause|c]].
Qed.

Lemma has_nul_app (a b : string) :
  has_nul (a +:+ b) = has_nul a || has_nul b.
Proof.
  unfold has_nul. induction a as [|ch a IH]; [done|].
  simpl. by rewrite IH, orb_assoc.
Qed.

Lemma busy_host_plan container_image code_dir (n : nat) :
  has_nul container_image = false -> has_nul code_dir = false ->
  next_plan container_image code_dir (busy_host n) = Spawns server_script.
Proof.
  intros Hi Hd. unfold next_plan, next_cmd.
  destruct (busy_host_config n) as [-> ->].
  unfold preview_cmd. cbn [existsb]. rewrite (has_nul_app code_dir), Hi, Hd.
  reflexivity.
Qed.

(** [n] callers blocked in the wait: [n] children running. *)
Lemma busy_host_running (n : nat) : running (busy_host n) = n.
Proof.
  induction n as [|n IH]; [done|].
  rewrite busy_host_succ, enter_preview_unfold.
  rewrite (busy_host_plan "node:18-alpine" "/code" n eq_refl eq_refl).
  cbn [fst]. rewrite running_after, running_cleanup, IH. cbn. lia.
Qed.

(** C4, as stated, fails: with the ceiling at two and two previews running,
    a third request is not turned away; the runtime is asked to start it. *)
Lemma third_preview_is_launched :
  ~ ceiling_enforced 2 "node:18-alpine" "/code" 30 (busy_host 2).
Proof.
  intros H. destruct H as [Hinv _].
  - by rewrite (busy_host_running 2).
  - rewrite run_preview_invocations in Hinv.
    apply (f_equal length) in Hinv. cbn in Hinv. lia.
Qed.

(** C4, amended: [run_preview] has no admission control. However many
    previews are running, each call asks the runtime for one more. The call
    is its launch followed by the wait; when the host starts the child, the
    wait begins with one more child running than before the call, every
    child that was running still being so, and when no child is started
    the number running is unchanged. *)
Theorem run_preview_admits_unconditionally container_image code_dir timeout w :
  let w' := fst (run_preview container_image code_dir timeout w) in
  let w1 := fst (enter_preview container_image code_dir w) in
  length (invocations w') = S (length (invocations w)) /\
  run_preview container_image code_dir timeout w
  = (proc <- enter_preview container_image code_dir ;;
     supervise proc timeout) w /\
  match next_plan container_image code_dir w with
  | Answer (Spawns _) =>
      running w1 = S (running w) /\
      forall i p, w_procs w !! i = Some p -> is_running p = true ->
                  w_procs w1 !! i = Some p
  | _ => running w1 = running w
  end.
Proof.
  intros w' w1. subst w' w1. split; [|split].
  - by rewrite run_preview_invocations.
  - apply run_preview_phases.
  - rewrite enter_preview_unfold.
    destruct (next_plan _ _ _) as [|[cause|c]]; cbn [fst];
      rewrite running_after, running_cleanup; [cbn; lia|cbn; lia|].
    split; [cbn; lia|]. intros i p Hp Hrun.
    unfold after. cbn [w_procs]. rewrite lookup_app_l.
    + rewrite cleanup_lookup, Hp. cbn. unfold reap_killed, is_running in *.
      by destruct (p_state p).
    + rewrite cleanup_length. by apply lookup_lt_Some in Hp.
Qed.

Lemma run_preview_admits_unconditionally_witness :
  let w := busy_host 2 in
  let w1 := fst (enter_preview "node:18-alpine" "/code" w) in
  running w = 2 /\
  next_plan "node:18-alpine" "/code" w = Spawns server_script /\
  running w1 = 3 /\
  w_procs w1 !! 0 = w_procs w !! 0 /\ w_procs w1 !! 1 = w_procs w !! 1.
Proof.
  split; [reflexivity|]. split; [reflexivity|].
  pose proof (run_preview_admits_unconditionally
                "node:18-alpine" "/code" 30 (busy_host 2)) as (_ & _ & H).
  change (next_plan "node:18-alpine" "/code" (busy_host 2))
    with (Answer (Spawns server_script)) in H.
  destruct H as [Hrun Hkeep].
  split; [exact Hrun|].
  split; [exact (Hkeep 0 _ eq_refl eq_refl)|exact (Hkeep 1 _ eq_refl eq_refl)].
Defined.

(** ** Isolation *)

(** C5, as stated, fails: the command line built for the default arguments
    has no option that selects an unprivileged user. *)
Lemma no_user_option_in_invocation :
  ~ isolation_invocation "node:18-alpine" "/code" 30
      (idle_host (Spawns server_script)).
Proof.
  intros (argv & Hinv & _ & _ & Huser & _).
  rewrite run_preview_invocations in Hinv.
  injection Hinv as <-. vm_compute in Huser. discriminate Huser.
Qed.

(** C5, amended: the command line handed to the runtime is the docker
    invocation below: [code_dir] mounted read-only at [/srv], networking
    set to [none], working directory [/srv], then the image and the fixed
    serving command. The function itself adds no user option: one is
    present only if [code_dir] or [container_image] spells one. *)
Theorem run_preview_invocation container_image code_dir timeout w :
  let name :=
    "svgbuilder_preview_" +:+ substring 0 8 (w_uuid w (w_draws w)) in
  let argv :=
    [ "docker"; "run"; "--rm"; "--name"; name; "--network"; "none";
      "-v"; code_dir +:+ ":/srv:ro"; "-w"; "/srv"; container_image;
      "npx"; "http-server"; "-p"; "8080" ] in
  invocations (fst (run_preview container_image code_dir timeout w))
  = argv :: invocations w /\
  adjacent "-v" (code_dir +:+ ":/srv:ro") argv /\
  adjacent "--network" "none" argv /\
  (exists pre,
     argv = pre ++ container_image :: ["npx"; "http-server"; "-p"; "8080"]) /\
  existsb user_option argv
  = user_option (code_dir +:+ ":/srv:ro") || user_option container_image.
Proof.
  intros name argv. split; [apply run_preview_invocations|].
  split; [by eexists [_; _; _; _; _; _; _], _|].
  split; [by eexists [_; _; _; _; _], _|].
  split; [by eexists [_; _; _; _; _; _; _; _; _; _; _]|].
  subst argv name. cbn. by rewrite !orb_false_r.
Qed.

(** ** Natural termination *)

(** C6, as stated, fails: a child that exits with status 0 after writing a
    byte that is not UTF-8 makes [run_preview] raise instead of returning a
    result. *)
Lemma undecodable_stdout_raises :
  ~ natural_gives_result "node:18-alpine" "/code" 30
      (idle_host (Spawns (short_script [xff] [] 0))).
Proof.
  intros H.
  destruct (H (short_script [xff] [] 0) [xff] [] 0%Z eq_refl eq_refl)
    as [d Hd].
  vm_compute in Hd. discriminate Hd.
Qed.

(** C6, amended: when the child ends by itself before the deadline and both
    captured streams are well-formed UTF-8, [run_preview] returns the
    dictionary of the two decoded streams, the same for every exit status,
    zero or not; the exit status stays with the reaped handle and is not
    part of the result. *)
Theorem run_preview_natural container_image code_dir timeout w c out err code
    o e :
  next_plan container_image code_dir w = Spawns c ->
  race c timeout = Exited out err code ->
  Utf8.decode out = Some o ->
  Utf8.decode err = Some e ->
  let r := run_preview container_image code_dir timeout w in
  snd r = Returned {[ "out" := o; "err" := e ]} /\
  p_state <$> w_procs (fst r) !! length (w_procs w) = Some (Reaped code).
Proof.
  intros Hplan Hrace Ho He r. subst r.
  rewrite run_preview_unfold, Hplan, Hrace. cbn [fst snd]. split.
  - unfold decoded. by rewrite Ho, He.
  - by rewrite lookup_own.
Qed.

Lemma run_preview_natural_witness :
  let c := short_script (blit "hi") (blit "warn") 1 in
  let w := idle_host (Spawns c) in
  let r := run_preview "node:18-alpine" "/code" 30 w in
  next_plan "node:18-alpine" "/code" w = Spawns c /\
  race c 30 = Exited (blit "hi") (blit "warn") 1 /\
  snd r = Returned {[ "out" := lit "hi"; "err" := lit "warn" ]} /\
  p_state <$> w_procs (fst r) !! 0 = Some (Reaped 1).
Proof.
  split; [reflexivity|]. split; [reflexivity|].
  exact (run_preview_natural "node:18-alpine" "/code" 30
           (idle_host (Spawns (short_script (blit "hi") (blit "warn") 1)))
           (short_script (blit "hi") (blit "warn") 1)
           (blit "hi") (blit "warn") 1%Z (lit "hi") (lit "warn")
           eq_refl eq_refl eq_refl eq_refl).
Defined.

(** ** Launch failure *)

(** C7, as stated, fails: when the docker executable cannot be started the
    caller receives the exception of [Popen], not a result. *)
Lemma spawn_failure_propagates :
  ~ launch_failure_structured "node:18-alpine" "/code" 30
      (idle_host (SpawnFails "[Errno 2] No such file or directory: 'docker'")).
Proof.
  intros H. destruct (H _ eq_refl) as [d Hd].
  vm_compute in Hd. discriminate Hd.
Qed.

(** C7, amended: when [Popen] fails, [run_preview] lets its [OSError], which
    carries the cause, reach the caller; the runtime has been asked once
    (no retry) and no child has been started: the process table is the one
    the sweep of [Popen] leaves. *)
Theorem run_preview_launch_failure container_image code_dir timeout w cause :
  next_plan container_image code_dir w = SpawnFails cause ->
  let r := run_preview container_image code_dir timeout w in
  snd r = Raised (OSError cause) /\
  invocations (fst r) = next_cmd container_image code_dir w :: invocations w /\
  w_procs (fst r) = w_procs (_cleanup w).
Proof.
  intros Hplan r. subst r. split; [|split].
  - by rewrite run_preview_result, Hplan.
  - apply run_preview_invocations.
  - rewrite run_preview_unfold, Hplan. unfold after. cbn [fst w_procs].
    apply app_nil_r.
Qed.

Lemma run_preview_launch_failure_witness :
  let w := idle_host (SpawnFails "docker daemon is not running") in
  let r := run_preview "node:18-alpine" "/code" 30 w in
  next_plan "node:18-alpine" "/code" w
  = SpawnFails "docker daemon is not running" /\
  snd r = Raised (OSError "docker daemon is not running") /\
  invocations (fst r) = [next_cmd "node:18-alpine" "/code" w] /\
  w_procs (fst r) = [].
Proof.
  split; [reflexivity|].
  exact (run_preview_launch_failure "node:18-alpine" "/code" 30
           (idle_host (SpawnFails "docker daemon is not running"))
           "docker daemon is not running" eq_refl).
Defined.

(** What the docker client reports by exiting (an image it cannot obtain,
    a mount it cannot make) is an ordinary natural end. *)
Example run_preview_no_image :
  snd (run_preview "nope:latest" "/code" 30 (idle_host (Spawns no_image_script)))
  = Returned {[ "out" := [];
                "err" := lit "Unable to find image 'nope:latest' locally" ]}.
Proof. reflexivity. Qed.

(** ** Output size *)

Lemma decode_points_ascii (l : list N) :
  Forall (fun b => b < 128)%N l -> Utf8.decode_points l = Some l.
Proof.
  induction 1 as [|b l Hb _ IH]; [done|].
  cbn [Utf8.decode_points].
  apply N.ltb_lt in Hb. by rewrite Hb, IH.
Qed.

Lemma decode_repeat_a (n : nat) :
  Utf8.decode (repeat x61 n) = Some (repeat 97%N n).
Proof.
  unfold Utf8.decode. rewrite map_repeat.
  apply decode_points_ascii.
  induction n as [|n IH]; by constructor.
Qed.

Lemma run_preview_short_result out err code :
  snd (run_preview "node:18-alpine" "/code" 30
         (idle_host (Spawns (short_script out err code))))
  = decoded out err.
Proof.
  rewrite run_preview_result.
  change (next_plan _ _ _) with (Answer (Spawns (short_script out err code))).
  cbn. by rewrite !app_nil_r.
Qed.

(** C8, as stated, fails: no byte limit bounds the captured output; for
    every candidate limit, a child that prints one character more gets all
    of it back in the result. *)
Lemma output_is_not_capped :
  ~ exists cap, forall w, output_capped cap "node:18-alpine" "/code" 30 w.
Proof.
  intros [cap H].
  specialize (H (idle_host (Spawns (short_script (repeat x61 (S cap)) [] 0)))
                {[ "out" := repeat 97%N (S cap); "err" := [] ]}
                "out" (repeat 97%N (S cap))).
  rewrite repeat_length in H. enough (S cap <= cap) by lia. apply H; [|done].
  rewrite run_preview_short_result. unfold decoded.
  by rewrite decode_repeat_a.
Qed.

(** C8, amended: after a natural end the result holds the decoding of every
    byte the child wrote to each pipe before it exited, however many there
    are; nothing is cut and the result has no [truncated] entry. *)
Theorem run_preview_output_in_full container_image code_dir timeout w c te
    code o e :
  next_plan container_image code_dir w = Spawns c ->
  fault_first c timeout = None ->
  cs_exit c = Some (te, code) ->
  te <= timeout ->
  Utf8.decode (buffered (cs_stdout c) te) = Some o ->
  Utf8.decode (buffered (cs_stderr c) te) = Some e ->
  exists d,
    snd (run_preview container_image code_dir timeout w) = Returned d /\
    d !! "out" = Some o /\ d !! "err" = Some e /\ d !! "truncated" = None.
Proof.
  intros Hplan Hfault Hexit Hte Ho He.
  exists {[ "out" := o; "err" := e ]}. split; [|done].
  rewrite run_preview_result, Hplan.
  unfold race, natural. rewrite Hfault, Hexit.
  apply Nat.leb_le in Hte. rewrite Hte.
  unfold decoded. by rewrite Ho, He.
Qed.

Lemma run_preview_output_in_full_witness :
  let c := short_script (repeat x61 4096) (blit "warn") 0 in
  let w := idle_host (Spawns c) in
  next_plan "node:18-alpine" "/code" w = Spawns c /\
  fault_first c 30 = None /\
  cs_exit c = Some (2, 0%Z) /\
  2 <= 30 /\
  exists d,
    snd (run_preview "node:18-alpine" "/code" 30 w) = Returned d /\
    d !! "out" = Some (repeat 97%N 4096) /\
    d !! "err" = Some (lit "warn") /\
    d !! "truncated" = None.
Proof.
  split; [reflexivity|]. split; [reflexivity|]. split; [reflexivity|].
  split; [lia|].
  apply (run_preview_output_in_full "node:18-alpine" "/code" 30
           (idle_host (Spawns (short_script (repeat x61 4096) (blit "warn") 0)))
           (short_script (repeat x61 4096) (blit "warn") 0) 2 0%Z).
  - reflexivity.
  - reflexivity.
  - reflexivity.
  - lia.
  - cbn [short_script cs_stdout buffered List.filter fst snd Nat.leb map concat].
    rewrite app_nil_r. apply decode_repeat_a.
  - reflexivity.
Defined.

(** ** Release *)

(** C9: releasing a session id that has already been released changes
    nothing and is not an error: the second call returns normally and
    leaves the registry as the first call left it. *)
Theorem release_idempotent (id : string) (r : Registry.registry) :
  let r1 := fst (Registry.release id r) in
  Registry.release id r1 = (r1, Returned tt).
Proof.
  intros r1. subst r1. unfold Registry.release. cbn.
  by rewrite delete_delete_eq.
Qed.

(** ** Result shapes *)

(** C10, as stated, fails: a child that ends by itself after writing
    Latin-1 text to stderr yields no dictionary at all. *)
Lemma latin1_stderr_gives_no_dictionary :
  ~ two_shapes "node:18-alpine" "/code" 30
      (idle_host (Spawns (short_script (blit "ok") latin1_cafe 0))).
Proof.
  intros H.
  destruct (H _ eq_refl) as [Hnat _].
  destruct (Hnat (blit "ok") latin1_cafe 0%Z eq_refl) as (d & Hd & _).
  vm_compute in Hd. discriminate Hd.
Qed.

Lemma shapes_disjoint (d : gmap string pystr) :
  ~ (shape_output d /\ shape_timeout d).
Proof.
  unfold shape_output, shape_timeout. intros [Hout ->].
  rewrite dom_singleton_L in Hout.
  assert ("out" ∈ ({[ "error" ]} : gset string)) as Hin
    by (rewrite Hout; set_solver).
  apply elem_of_singleton in Hin. discriminate Hin.
Qed.

(** C10, amended: every dictionary [run_preview] returns has exactly one of
    the two shapes. A natural end whose streams are both well-formed UTF-8
    gives exactly the keys [out] and [err], holding the decoded streams,
    and no [error] key; a timeout gives exactly the single entry
    [error = timeout] and no output keys. *)
Theorem run_preview_two_shapes container_image code_dir timeout w :
  let r := run_preview container_image code_dir timeout w in
  (forall d, snd r = Returned d ->
     (shape_output d \/ shape_timeout d) /\
     ~ (shape_output d /\ shape_timeout d)) /\
  (forall c, next_plan container_image code_dir w = Spawns c ->
     (forall out err code o e,
        race c timeout = Exited out err code ->
        Utf8.decode out = Some o -> Utf8.decode err = Some e ->
        exists d, snd r = Returned d /\ shape_output d /\
                  d !! "out" = Some o /\ d !! "err" = Some e /\
                  d !! "error" = None) /\
     (forall out err,
        race c timeout = Expired out err ->
        exists d, snd r = Returned d /\ shape_timeout d /\
                  d !! "out" = None /\ d !! "err" = None)).
Proof.
  intros r. subst r. rewrite run_preview_result. split.
  - intros d Hd. split; [|apply shapes_disjoint].
    destruct (next_plan _ _ _) as [|[cause|c]]; [done|done|].
    destruct (race c timeout) as [out err code|out err|what]; [| |done].
    + left. unfold decoded in Hd.
      destruct (Utf8.decode out) as [o|]; [|done].
      destruct (Utf8.decode err) as [e|]; [|done].
      simplify_eq. unfold shape_output.
      by rewrite dom_insert_L, dom_singleton_L.
    + right. by simplify_eq.
  - intros c ->. split.
    + intros out err code o e -> Ho He.
      exists {[ "out" := o; "err" := e ]}. unfold decoded. rewrite Ho, He.
      split; [done|]. split; [|done].
      unfold shape_output. by rewrite dom_insert_L, dom_singleton_L.
    + intros out err ->. by exists {[ "error" := lit "timeout" ]}.
Qed.

Lemma run_preview_two_shapes_witness :
  let c := short_script (blit "hi") (blit "warn") 3 in
  let r := run_preview "node:18-alpine" "/code" 30 (idle_host (Spawns c)) in
  let r' := run_preview "node:18-alpine" "/code" 30
              (idle_host (Spawns server_script)) in
  snd r = Returned {[ "out" := lit "hi"; "err" := lit "warn" ]} /\
  ((shape_output {[ "out" := lit "hi"; "err" := lit "warn" ]} \/
    shape_timeout {[ "out" := lit "hi"; "err" := lit "warn" ]}) /\
   ~ (shape_output {[ "out" := lit "hi"; "err" := lit "warn" ]} /\
      shape_timeout {[ "out" := lit "hi"; "err" := lit "warn" ]})) /\
  (exists d, snd r = Returned d /\ shape_output d /\
             d !! "out" = Some (lit "hi") /\ d !! "err" = Some (lit "warn") /\
             d !! "error" = None) /\
  (exists d, snd r' = Returned d /\ shape_timeout d /\
             d !! "out" = None /\ d !! "err" = None).
Proof.
  split; [reflexivity|]. split; [|split].
  - exact (proj1 (run_preview_two_shapes "node:18-alpine" "/code" 30
                    (idle_host (Spawns (short_script (blit "hi") (blit "warn") 3))))
                 {[ "out" := lit "hi"; "err" := lit "warn" ]} eq_refl).
  - exact (proj1 (proj2 (run_preview_two_shapes "node:18-alpine" "/code" 30
                           (idle_host (Spawns (short_script (blit "hi") (blit "warn") 3))))
                        (short_script (blit "hi") (blit "warn") 3) eq_refl)
                 (blit "hi") (blit "warn") 3%Z (lit "hi") (lit "warn")
                 eq_refl eq_refl eq_refl).
  - exact (proj2 (proj2 (run_preview_two_shapes "node:18-alpine" "/code" 30
                           (idle_host (Spawns server_script)))
                        server_script eq_refl)
                 (blit "Starting up http-server") [] eq_refl).
Defined.

(** * Further properties of [run_preview] *)








Lemma run_preview_host container_image code_dir timeout w :
  let w' := fst (run_preview container_image code_dir timeout w) in
  w_draws w' = S (w_draws w) /\ w_uuid w' = w_uuid w /\
  w_runtime w' = w_runtime w /\ w_dirs w' = w_dirs w.
Proof.
  intros w'. subst w'. rewrite run_preview_unfold.
  destruct (next_plan _ _ _) as [|[cause|c]]; [done|done|].
  by destruct (race c timeout).
Qed.

Lemma string_app_inj_l (p a b : string) : p +:+ a = p +:+ b -> a = b.
Proof.
  induction p as [|ch p IH]; cbn; [done|].
  intros [= H]. by apply IH.
Qed.

(** X3: container names are as unique as the first eight characters of the
    uuids. Two successive calls ask the runtime for the same [--name]
    exactly when the two uuids they draw agree on their first eight
    characters. *)
Theorem container_name_collision image1 dir1 timeout1 image2 dir2 timeout2 w :
  let w1 := fst (run_preview image1 dir1 timeout1 w) in
  let w2 := fst (run_preview image2 dir2 timeout2 w1) in
  exists cmd1 cmd2,
    invocations w2 = cmd2 :: cmd1 :: invocations w /\
    (container_name cmd1 = container_name cmd2 <->
     substring 0 8 (w_uuid w (w_draws w))
     = substring 0 8 (w_uuid w (S (w_draws w)))).
Proof.
  intros w1 w2.
  exists (next_cmd image1 dir1 w), (next_cmd image2 dir2 w1). split.
  - subst w2 w1. by rewrite !run_preview_invocations.
  - destruct (run_preview_host image1 dir1 timeout1 w) as (Hd & Hu & _).
    fold w1 in Hd, Hu. unfold next_cmd, container_name, preview_cmd.
    cbn [nth]. rewrite Hd, Hu. split.
    + apply string_app_inj_l.
    + by intros ->.
Qed.

Example container_name_sample :
  container_name
    (next_cmd "node:18-alpine" "/code" (idle_host (Spawns server_script)))
  = "svgbuilder_preview_3f2b8c1e".
Proof. reflexivity. Qed.

Lemma container_name_collision_witness :
  let w1 := fst (run_preview "node:18-alpine" "/code" 30 twin_host) in
  let w2 := fst (run_preview "node:18-alpine" "/code" 30 w1) in
  w_uuid twin_host 0 <> w_uuid twin_host 1 /\
  exists cmd1 cmd2,
    invocations w2 = [cmd2; cmd1] /\
    container_name cmd1 = container_name cmd2.
Proof.
  split; [discriminate|].
  destruct (container_name_collision "node:18-alpine" "/code" 30
              "node:18-alpine" "/code" 30 twin_host)
    as (cmd1 & cmd2 & Hinv & Hname).
  exists cmd1, cmd2. split; [exact Hinv|].
  apply Hname. reflexivity.
Defined.





(** Two previews that time out one after the other: when the second
    returns, the first child has been reaped and only the second is left
    unreaped. *)
Example two_timeouts_leave_one :
  let w1 := fst (run_preview "node:18-alpine" "/code" 30
                   (idle_host (Spawns server_script))) in
  let w2 := fst (run_preview "node:18-alpine" "/code" 30 w1) in
  active w1 = [0] /\ active w2 = [1] /\
  (p_state <$> w_procs w2) = [Reaped (-9); Signalled].
Proof. by vm_compute. Qed.

(** X5: ASCII output comes back character for character. After a natural
    end with nothing but ASCII bytes on both pipes, [out] and [err] hold
    exactly the code points of those bytes, one per byte. *)
Theorem run_preview_ascii_verbatim container_image code_dir timeout w c out
    err code :
  next_plan container_image code_dir w = Spawns c ->
  race c timeout = Exited out err code ->
  ascii_only out -> ascii_only err ->
  snd (run_preview container_image code_dir timeout w)
  = Returned {[ "out" := map Byte.to_N out; "err" := map Byte.to_N err ]}.
Proof.
  intros Hplan Hrace Hout Herr.
  rewrite run_preview_result, Hplan, Hrace.
  unfold decoded, Utf8.decode, ascii_only in *.
  rewrite !decode_points_ascii; [done| |]; by apply Forall_map.
Qed.

Lemma run_preview_ascii_verbatim_witness :
  let c := short_script (blit "hi") (blit "warn") 1 in
  let w := idle_host (Spawns c) in
  next_plan "node:18-alpine" "/code" w = Spawns c /\
  race c 30 = Exited (blit "hi") (blit "warn") 1 /\
  snd (run_preview "node:18-alpine" "/code" 30 w)
  = Returned {[ "out" := [104; 105]%N; "err" := [119; 97; 114; 110]%N ]}.
Proof.
  split; [reflexivity|]. split; [reflexivity|].
  apply (run_preview_ascii_verbatim "node:18-alpine" "/code" 30
           (idle_host (Spawns (short_script (blit "hi") (blit "warn") 1)))
           (short_script (blit "hi") (blit "warn") 1)
           (blit "hi") (blit "warn") 1%Z eq_refl eq_refl).
  - repeat constructor.
  - repeat constructor.
Defined.




(** * The embedding model cache *)

Section EmbeddingsFacts.

Variable model : Type.
Variable vector : Type.
Variable SentenceTransformer : nat -> string -> outcome model.
Variable encode : model -> string -> vector.

Local Abbreviation get_model := (Embeddings.get_model model SentenceTransformer).
Local Abbreviation embed :=
  (Embeddings.embed model vector SentenceTransformer encode).

Lemma get_model_cached (name : string) (g : Embeddings.globals model)
    (m : model) :
  Embeddings._model g = Some m -> get_model name g = (g, Returned m).
Proof. unfold Embeddings.get_model. by intros ->. Qed.

Lemma get_model_fills_cache (name : string) (g g1 : Embeddings.globals model)
    (m : model) :
  get_model name g = (g1, Returned m) -> Embeddings._model g1 = Some m.
Proof.
  unfold Embeddings.get_model. intros H.
  destruct (Embeddings._model g) as [m0|] eqn:Hg; [by simplify_eq|].
  destruct (SentenceTransformer _ name) as [m1|e]; by simplify_eq.
Qed.

(** X7: the first model loaded is the only one. Once a call of [get_model]
    has returned a model, every later call returns that same model and
    constructs nothing, whatever name it is given. *)
Theorem get_model_keeps_first (name1 name2 : string)
    (g g1 : Embeddings.globals model) (m : model) :
  get_model name1 g = (g1, Returned m) ->
  get_model name2 g1 = (g1, Returned m).
Proof.
  intros H. by apply get_model_cached, (get_model_fills_cache name1 g).
Qed.

(** X8: [embed] encodes with whatever model is cached. After any successful
    [get_model], for any name, [embed] uses that model, constructs nothing
    and leaves the cache as it is; its own default name plays no part. *)
Theorem embed_uses_cached_model (name text : string)
    (g g1 : Embeddings.globals model) (m : model) :
  get_model name g = (g1, Returned m) ->
  embed text g1 = (g1, Returned (encode m text)).
Proof.
  intros H. unfold Embeddings.embed.
  by rewrite (get_model_cached Embeddings.default_name g1 m
                (get_model_fills_cache name g g1 m H)).
Qed.

(** X9: a failed load is not cached. When [get_model] raises, the cache is
    still empty and the next call constructs again, with the name it is
    given. *)
Theorem get_model_failure_not_cached (name : string)
    (g g1 : Embeddings.globals model) (e : exn) :
  get_model name g = (g1, Raised e) ->
  Embeddings._model g1 = None /\
  forall name',
    Embeddings.constructed (fst (get_model name' g1))
    = name' :: name :: Embeddings.constructed g.
Proof.
  unfold Embeddings.get_model. intros H.
  destruct (Embeddings._model g) as [m0|] eqn:Hg; [done|].
  destruct (SentenceTransformer _ name) as [m1|e1]; simplify_eq.
  split; [done|]. intros name'. cbn.
  by destruct (SentenceTransformer _ name').
Qed.

End EmbeddingsFacts.

Lemma get_model_keeps_first_witness :
  let g := Embeddings.Build_globals None ["all-MiniLM-L6-v2"] in
  let g1 := Embeddings.Build_globals (Some "paraphrase-albert")
              ["paraphrase-albert"; "all-MiniLM-L6-v2"] in
  Embeddings.get_model string flaky_hub "paraphrase-albert" g
  = (g1, Returned "paraphrase-albert") /\
  Embeddings.get_model string flaky_hub "all-MiniLM-L6-v2" g1
  = (g1, Returned "paraphrase-albert").
Proof.
  split; [reflexivity|].
  exact (get_model_keeps_first string flaky_hub
           "paraphrase-albert" "all-MiniLM-L6-v2"
           (Embeddings.Build_globals None ["all-MiniLM-L6-v2"])
           (Embeddings.Build_globals (Some "paraphrase-albert")
              ["paraphrase-albert"; "all-MiniLM-L6-v2"])
           "paraphrase-albert" eq_refl).
Defined.

Lemma embed_uses_cached_model_witness :
  let g := Embeddings.Build_globals None ["all-MiniLM-L6-v2"] in
  let g1 := Embeddings.Build_globals (Some "paraphrase-albert")
              ["paraphrase-albert"; "all-MiniLM-L6-v2"] in
  Embeddings.get_model string flaky_hub "paraphrase-albert" g
  = (g1, Returned "paraphrase-albert") /\
  Embeddings.embed string (list nat) flaky_hub toy_encode "hello" g1
  = (g1, Returned [17; 5]).
Proof.
  split; [reflexivity|].
  exact (embed_uses_cached_model string (list nat) flaky_hub toy_encode
           "paraphrase-albert" "hello"
           (Embeddings.Build_globals None ["all-MiniLM-L6-v2"])
           (Embeddings.Build_globals (Some "paraphrase-albert")
              ["paraphrase-albert"; "all-MiniLM-L6-v2"])
           "paraphrase-albert" eq_refl).
Defined.

Lemma get_model_failure_not_cached_witness :
  let g := Embeddings.Build_globals None [] in
  let g1 := Embeddings.Build_globals None ["all-MiniLM-L6-v2"] in
  Embeddings.get_model string flaky_hub "all-MiniLM-L6-v2" g
  = (g1, Raised (OSError "hub unreachable")) /\
  Embeddings._model g1 = None /\
  forall name',
    Embeddings.constructed
      (fst (Embeddings.get_model string flaky_hub name' g1))
    = [name'; "all-MiniLM-L6-v2"].
Proof.
  split; [reflexivity|].
  exact (get_model_failure_not_cached string flaky_hub
           "all-MiniLM-L6-v2"
           (Embeddings.Build_globals None [])
           (Embeddings.Build_globals None ["all-MiniLM-L6-v2"])
           (OSError "hub unreachable") eq_refl).
Defined.

(** * The generation route *)

Section OllamaFacts.

Variable json : Type.
Variable float : Type.
Variable str : Ollama.error -> string.

Local Abbreviation generate := (Ollama.generate json float str).

(** X10: every failure of the generation route is an HTTP 500. Whatever
    goes wrong upstream (no response, an error status, a body that is not
    JSON), the handler raises [HTTPException] with status 500 and the text
    of the underlying error as detail; the underlying error itself never
    reaches the caller. *)
Theorem generate_failure_is_500 (environ : gmap string string)
    (req : Ollama.GenRequest float) (n : Ollama.net json float)
    (e : Ollama.error) :
  snd (generate environ req n) = Ollama.Err e ->
  exists e0,
    e = Ollama.HTTPException 500 (str e0) /\
    ((exists why, e0 = Ollama.RequestException why) \/
     (exists status_code,
        e0 = Ollama.HTTPError status_code /\
        (400 <= status_code < 600)%Z) \/
     e0 = Ollama.JSONDecodeError).
Proof.
  unfold Ollama.generate, Ollama.generate_with_ollama.
  destruct (Ollama.server n _ _) as [why|status_code body].
  - intros [= <-]. eexists. split; [done|]. left. by exists why.
  - destruct (Ollama.is_error_status status_code) eqn:Hst.
    + intros [= <-]. eexists. split; [done|]. right. left.
      exists status_code. split; [done|].
      unfold Ollama.is_error_status in Hst.
      apply andb_true_iff in Hst as [H1 H2].
      apply Z.leb_le in H1. apply Z.ltb_lt in H2. lia.
    + destruct body as [j|]; [done|].
      intros [= <-]. eexists. split; [done|]. by right; right.
Qed.

(** X11: the generation route succeeds exactly when the single request it
    sends is answered with a status outside 400..599 and a JSON body, and
    it then returns that body unchanged. The request goes to
    [OLLAMA_URL] with a timeout of 300 seconds. *)
Theorem generate_success (environ : gmap string string)
    (req : Ollama.GenRequest float) (n : Ollama.net json float) :
  exists p,
    Ollama.sent (fst (generate environ req n)) = p :: Ollama.sent n /\
    Ollama.url p = Ollama.OLLAMA_URL environ /\
    Ollama.timeout p = 300%Z /\
    forall j,
      snd (generate environ req n) = Ollama.Ok j <->
      exists status_code,
        Ollama.server n (length (Ollama.sent n)) p
        = Ollama.Response status_code (Some j) /\
        ~ (400 <= status_code < 600)%Z.
Proof.
  unfold Ollama.generate, Ollama.generate_with_ollama.
  match goal with |- context [Ollama.server n _ ?p] => exists p end.
  split; [|split; [done|split; [done|]]].
  - destruct (Ollama.server n _ _) as [why|status_code body]; [done|].
    destruct (Ollama.is_error_status status_code); [done|].
    by destruct body.
  - intros j.
    destruct (Ollama.server n _ _) as [why|status_code body] eqn:Hs.
    + split; [done|]. by intros (st & ? & _).
    + unfold Ollama.is_error_status.
      destruct (400 <=? status_code)%Z eqn:H1,
        (status_code <? 600)%Z eqn:H2; cbn [andb];
        rewrite ?Z.leb_le, ?Z.leb_gt, ?Z.ltb_lt, ?Z.ltb_ge in *;
        [split; [done|]; intros (st & [= <- _] & Hst); lia | | | ];
        (destruct body as [j'|]; cbn [snd]; split;
         [ intros [= <-]; exists status_code; split; [done|lia]
         | by intros (st & [= _ <-] & _)
         | done
         | by intros (st & [=] & _) ]).
Qed.

End OllamaFacts.

Lemma generate_failure_is_500_witness :
  snd (Ollama.generate string unit (fun _ => "upstream failed") ∅
         sample_request not_found_net)
  = Ollama.Err (Ollama.HTTPException 500 "upstream failed") /\
  exists e0,
    Ollama.HTTPException 500 "upstream failed"
    = Ollama.HTTPException 500 ((fun _ => "upstream failed") e0) /\
    ((exists why, e0 = Ollama.RequestException why) \/
     (exists status_code,
        e0 = Ollama.HTTPError status_code /\
        (400 <= status_code < 600)%Z) \/
     e0 = Ollama.JSONDecodeError).
Proof.
  split; [reflexivity|].
  exact (generate_failure_is_500 string unit (fun _ => "upstream failed") ∅
           sample_request not_found_net
           (Ollama.HTTPException 500 "upstream failed") eq_refl).
Defined.

Lemma generate_success_witness :
  snd (Ollama.generate string unit (fun _ => "upstream failed") ∅
         sample_request ok_net)
  = Ollama.Ok "{}" /\
  exists p status_code,
    Ollama.url p = "http://localhost:11434/api/generate" /\
    Ollama.server ok_net 0 p = Ollama.Response status_code (Some "{}") /\
    ~ (400 <= status_code < 600)%Z.
Proof.
  split; [reflexivity|].
  destruct (generate_success string unit (fun _ => "upstream failed") ∅
              sample_request ok_net) as (p & _ & Hurl & _ & Hiff).
  destruct (proj1 (Hiff "{}") eq_refl) as (status_code & Hs & Hst).
  exists p, status_code. split; [exact Hurl|]. split; [exact Hs|exact Hst].
Defined.

(** * The search route *)

Section SearchFacts.

Variable model : Type.
Variable vector : Type.
Variable SentenceTransformer : nat -> string -> outcome model.
Variable encode : model -> string -> vector.
Variable point_id : Type.
Variable point_payload : Type.
Variable score : Type.

Local Abbreviation hit := (Search.hit point_id point_payload score).
Local Abbreviation entry := (Search.entry point_id point_payload score).
Local Abbreviation collect := (Search.collect point_id point_payload score).
Local Abbreviation search :=
  (Search.search model vector SentenceTransformer encode
     point_id point_payload score).

Lemma collect_from (hits : list hit) acc :
  fold_left (fun results h => results ++ [entry h]) hits acc
  = acc ++ map entry hits.
Proof.
  revert acc. induction hits as [|h hits IH]; intros acc; cbn.
  - by rewrite app_nil_r.
  - by rewrite IH, <- app_assoc.
Qed.

(** X12: the search route returns one entry per hit, in the order the
    vector store gave them, each holding exactly the hit's id, payload and
    score; the store is asked once, at the fixed local address, for
    [top_k] points of the collection [templates]. *)
Theorem search_one_entry_per_hit (req : Search.SearchRequest)
    (g : Embeddings.globals model) (s : Search.store vector point_id point_payload score)
    results :
  snd (search req g s) = Returned results ->
  exists q hits,
    Search.asked (snd (fst (search req g s))) = q :: Search.asked s /\
    Search.q_url q = "http://localhost:6333" /\
    Search.q_collection q = "templates" /\
    Search.q_limit q = Search.top_k req /\
    Search.answer s (length (Search.asked s)) q = Returned hits /\
    results = map entry hits /\
    Forall (fun d => dom d = ({[ "id"; "payload"; "score" ]} : gset string))
           results.
Proof.
  unfold Search.search.
  destruct (Embeddings.embed _ _ _ _ _ g) as [g' [vec|e]]; [|done].
  destruct (Search.answer s _ _) as [hits|e] eqn:Ha; [|done].
  cbn [fst snd]. intros [= <-].
  eexists _, hits. split; [done|]. repeat (split; [done|]).
  unfold Search.collect. rewrite collect_from. cbn [app]. split; [done|].
  apply Forall_map, Forall_forall. intros h _. unfold Search.entry.
  rewrite !dom_insert_L, dom_singleton_L. set_solver.
Qed.

End SearchFacts.

Lemma search_one_entry_per_hit_witness :
  let r := Search.search string (list nat) flaky_hub toy_encode
             string string nat sample_search warm_cache sample_store in
  snd r = Returned (map (Search.entry string string nat) two_hits) /\
  exists q hits,
    Search.asked (snd (fst r)) = [q] /\
    Search.q_url q = "http://localhost:6333" /\
    Search.q_collection q = "templates" /\
    Search.q_limit q = 4%Z /\
    Search.answer sample_store 0 q = Returned hits /\
    map (Search.entry string string nat) two_hits
    = map (Search.entry string string nat) hits /\
    Forall (fun d => dom d = ({[ "id"; "payload"; "score" ]} : gset string))
           (map (Search.entry string string nat) two_hits).
Proof.
  split; [reflexivity|].
  exact (search_one_entry_per_hit string (list nat) flaky_hub toy_encode
           string string nat sample_search warm_cache sample_store
           (map (Search.entry string string nat) two_hits) eq_refl).
Defined.
